(** * myip.core: content negotiation and request-data merging

    A shallow embedding of [src/myip/core.py]: the [CONTENT_TYPES]
    registry, [json_frm], [merge_frm], [wants_type] and [want_json],
    together with the properties the specification states about them,
    and [get_ip], [get_redis] and [dump_yaml] with properties of their own.

    Python values are modelled by the inductive [pyval]; dictionaries with
    string keys by stdpp's [gmap string _]; a call that may raise by the
    [result] type.  Flask's request object, the application configuration
    and the [accept_types] header parser are external to the module and
    enter as section variables. *)

From Stdlib Require Import ZArith QArith Ascii String List SpecFloat.
From stdpp Require Import base option gmap strings list fin_maps.

Set Warnings "-register-all".
Set Default Proof Using "Type".

Local Open Scope string_scope.

(** ** Python values *)

(** The values that flow through the module: what [json.loads] produces
    (None, booleans, integers, IEEE doubles, strings, lists, objects) and
    the tuple and the callable that [json_frm] can hand back as a fallback.
    A double is kept in the Standard Library's specification format, so
    that [0.0] and [-0.0] are [S754_zero _]. *)
Inductive pyval : Type :=
  | PNone
  | PBool (b : bool)
  | PInt (z : Z)
  | PFloat (f : spec_float)
  | PStr (s : string)
  | PList (l : list pyval)
  | PTuple (l : list pyval)
  | PDict (d : gmap string pyval)
  | PCallable (res : pyval)   (* a callable object; calling it gives [res] *).

(** Exceptions the modelled code can raise. *)
Inductive exn : Type :=
  | TypeError            (* [**x] on something that is not a mapping *)
  | AttributeError       (* [x.lower()] on something that is not a [str] *)
  | BadRequest           (* [get_json(silent=False)] on an unparsable body *)
  | UnsupportedMediaType (* [get_json(force=False, silent=False)], wrong mimetype *).

Inductive result (A : Type) : Type :=
  | Ok (a : A)
  | Raise (e : exn).
Arguments Ok {A} a.
Arguments Raise {A} e.

(** Sequencing: the first exception raised ends the call. *)
#[global] Instance result_ret : MRet result := fun _ a => Ok a.
#[global] Instance result_bind : MBind result := fun _ _ k r =>
  match r with
  | Ok a => k a
  | Raise e => Raise e
  end.

(** ** Strings *)

(** [str.lower()] on the ASCII letters.  Strings are byte strings (UTF-8);
    bytes outside [A-Z] are kept.  Every alias of the registry is ASCII and
    none contains a [k], the only ASCII letter that is the lower case of a
    character outside ASCII, so membership of a lowered string in an alias
    list is the same as with Python's Unicode-aware [lower]. *)
Definition lower_ascii (c : ascii) : ascii :=
  let n := nat_of_ascii c in
  if Nat.leb 65 n && Nat.leb n 90 then ascii_of_nat (n + 32) else c.

Fixpoint lower (s : string) : string :=
  match s with
  | EmptyString => EmptyString
  | String c t => String (lower_ascii c) (lower t)
  end.

(** [needle in hay] for strings: substring test. *)
Fixpoint str_in (needle hay : string) : bool :=
  String.prefix needle hay ||
  match hay with
  | EmptyString => false
  | String _ t => str_in needle t
  end.

(** [s in l] for a list of strings. *)
Definition in_list (s : string) (l : list string) : bool :=
  existsb (String.eqb s) l.

(** ** privex.helpers.empty and empty_if *)

(** [v in [None, '']], extended by [0] and ['0'] when [zero] is set.
    Python compares with [==], so [False] and [0.0] equal [0]. *)
Definition in_check (zero : bool) (v : pyval) : bool :=
  match v with
  | PNone => true
  | PStr s => String.eqb s "" || (zero && String.eqb s "0")
  | PInt z => zero && Z.eqb z 0
  | PBool b => zero && negb b
  | PFloat (S754_zero _) => zero
  | _ => false
  end.

(** [len(v) == 0] for the values that have a length. *)
Definition len_zero (v : pyval) : bool :=
  match v with
  | PStr s => String.eqb s ""
  | PList l | PTuple l => match l with [] => true | _ => false end
  | PDict d => bool_decide (d = ∅)
  | _ => false
  end.

Definition empty (v : pyval) (zero itr : bool) : bool :=
  in_check zero v || (itr && len_zero v).

Definition empty_if {A : Type} (inj : A → pyval) (v : A) (is_empty : A) : A :=
  if empty (inj v) false false then is_empty else v.

(** Optional arguments, [None] when absent. *)
Definition of_str (o : option string) : pyval :=
  match o with
  | None => PNone
  | Some s => PStr s
  end.

Definition of_map {V : Type} (inj : V → pyval) (o : option (gmap string V)) : pyval :=
  match o with
  | None => PNone
  | Some m => PDict (inj <$> m)
  end.

(** ** The registry *)

(** [CONTENT_TYPES], in the insertion order of the [dict(...)] call.  Two
    entries of the [text] list are adjacent string literals without a comma
    between them; Python joins such literals, which is written out here
    with [+:+]. *)
Definition CONTENT_TYPES : list (string * list string) :=
  [ ("json",
     ["json"; "application/json"; "application/x-json"; "application/js"; "js"; "api";
      "text/json"; "text/x-json"]);
    ("text",
     ["flat"; "txt"; "plain"; "x-plain"; "text"; "text/*"; "text/plain"; "text/x-plain";
      "text/plaintext"; "plaintext"; "plain-text"; "text/plain-text"; "application/plain";
      "application/x-plain" +:+ "application/plaintext";
      "application/plain-text" +:+ "application/text"]);
    ("html",
     ["htm"; "html"; "text/html"; "text/x-html"; "text/xhtml"; "text/xhtml+xml";
      "application/html"; "application/x-html"; "application/xhtml";
      "application/xhtml+xml"; "web"; "page"; "webpage"]);
    ("yaml",
     ["yml"; "yaml"; "x-yml"; "x-yaml"; "text/yaml"; "text/vnd.yaml"; "text/yml";
      "application/yaml"; "application/yml"; "text/x-yaml"; "text/x-yml";
      "application/vnd.yaml"; "application/x-yaml"; "application/x-yml"]) ].

(** [for tname, tlist in types.items(): if s in tlist: return tname] *)
Fixpoint first_type (types : list (string * list string)) (s : string) : option string :=
  match types with
  | [] => None
  | (tname, tlist) :: rest => if in_list s tlist then Some tname else first_type rest s
  end.

(** The alias list registered under a format name ([CONTENT_TYPES[name]]). *)
Definition aliases (name : string) : list string :=
  match find (fun p => String.eqb (fst p) name) CONTENT_TYPES with
  | Some p => snd p
  | None => []
  end.

(** The four literal lists tested after the registry loop in [wants_type]. *)
Definition inline_json : list string := ["json"; "application/json"; "js"; "api"].
Definition inline_text : list string := ["flat"; "plain"; "text"; "text/plain"; "plaintext"].
Definition inline_html : list string :=
  ["html"; "text/html"; "application/html"; "web"; "page"; "webpage"].
Definition inline_yaml : list string :=
  ["yml"; "yaml"; "text/yaml"; "text/yml"; "application/yaml"; "application/yml"].

Definition inline_type (s : string) : option string :=
  if in_list s inline_json then Some "json"
  else if in_list s inline_text then Some "text"
  else if in_list s inline_html then Some "html"
  else if in_list s inline_yaml then Some "yaml"
  else None.

(** ** External collaborators *)

(** An entry of a parsed Accept header ([accept_types.AcceptableType]). *)
Record AcceptableType : Type := {
  mime_type : string;
  weight : Q
}.

(** Flask's request, as far as the module reads it: the headers, the
    results of [dict(req.args)] and [dict(req.form)], whether the mimetype
    announces JSON, and the body parsed as JSON ([None] when the body is
    empty or is not JSON). *)
Record Request : Type := {
  headers : gmap string string;
  args : gmap string pyval;
  form : gmap string pyval;
  is_json : bool;
  data_json : option pyval
}.

(** [req.get_json(force, silent, cache)]: the parsed body; a wrong mimetype
    (unless [force]) or an unparsable body gives [None] when [silent] and
    an HTTP error otherwise.  [cache] only avoids parsing twice. *)
Definition get_json (req : Request) (force silent cache : bool) : result pyval :=
  if negb force && negb (is_json req) then
    if silent then Ok PNone else Raise UnsupportedMediaType
  else
    match data_json req with
    | Some j => Ok j
    | None => if silent then Ok PNone else Raise BadRequest
    end.

(** The [fallback] argument of [json_frm]: one of the three types the
    function compares it with, or any other value. *)
Inductive fallback : Type :=
  | FbDict
  | FbList
  | FbTuple
  | FbValue (v : pyval).

Definition callable (v : pyval) : bool :=
  match v with
  | PCallable _ => true
  | _ => false
  end.

Definition call (v : pyval) : pyval :=
  match v with
  | PCallable res => res
  | _ => v
  end.

(** [{**data, **x}]: the keys of [x] win. *)
Definition overlay {V : Type} (data x : gmap string V) : gmap string V := x ∪ data.

(** [**x] needs a mapping. *)
Definition as_mapping (x : pyval) : result (gmap string pyval) :=
  match x with
  | PDict d => Ok d
  | _ => Raise TypeError
  end.

(** ** The module's functions *)

Section Core.

(** [accept_types.parse_header]: the entries of an Accept header, most
    preferred first. *)
Variable parse_header : string → list AcceptableType.

(** Flask's [request], the request being served. *)
Variable request : Request.

(** [cf['API_ONLY']] *)
Variable API_ONLY : bool.

(** [empty(req)] for an optional request object: only [None] is empty. *)
Definition pick_req (req : option Request) : Request :=
  match req with
  | None => request
  | Some r => r
  end.

(** [json_frm]: the body as JSON, with a fallback for a body that is absent,
    unparsable or empty. *)
Definition json_frm (force silent cache : bool) (fb : fallback)
    (req : option Request) (call_fb : bool) : result pyval :=
  let req := pick_req req in
  j ← get_json req force silent cache;
  if empty j true true then
    match fb with
    | FbDict => Ok (PDict ∅)
    | FbList => Ok (PList [])
    | FbTuple => Ok (PTuple [])
    | FbValue v => Ok (if call_fb && callable v then call v else v)
    end
  else Ok j.

(** [merge_frm]: the query string, the form and the JSON body in one
    dictionary.  [base_obj] is left at its default, [DictObject], a [dict]
    with attribute access.  The JSON part is read from the request being
    served, also when [req] is given: [json_frm] is called without it. *)
Definition merge_frm (use_get use_post use_json : bool) (req : option Request)
    : result (gmap string pyval) :=
  let req := pick_req req in
  let data : gmap string pyval := ∅ in
  let data := if use_get then overlay data (args req) else data in
  let data := if use_post then overlay data (form req) else data in
  data ← (if use_json then
            j ← json_frm true true true FbDict None true;
            d ← as_mapping j;
            Ok (overlay data d)
          else Ok data);
  Ok data.

(** The loop of [wants_type] over the parsed Accept header, with the
    [return 'any'] that follows it. *)
Fixpoint accept_loop (accepts : list AcceptableType) : string :=
  match accepts with
  | [] => "any"
  | mt :: rest =>
      if str_in "html" (mime_type mt) then "html"
      else match first_type CONTENT_TYPES (lower (mime_type mt)) with
           | Some tname => tname
           | None => accept_loop rest
           end
  end.

(** [fmt.lower()] *)
Definition py_lower (v : pyval) : result string :=
  match v with
  | PStr s => Ok (lower s)
  | _ => Raise AttributeError
  end.

(** [wants_type].  The argument [headers] of the source is [hdrs] here,
    [headers] being the field of the request. *)
Definition wants_type (accepts : option string) (hdrs : option (gmap string string))
    (query : option (gmap string pyval)) (fmt : option string) : result string :=
  let hdrs := if empty (of_map PStr hdrs) false true
              then headers request else default ∅ hdrs in
  let accepts := empty_if of_str accepts (Some (default "*/*" (hdrs !! "Accept"))) in
  let accepts := parse_header (default "" accepts) in
  query ← (if empty (of_map id query) false false
           then merge_frm true true true None else Ok (default ∅ query));
  let fmt := if empty (of_str fmt) false false
             then default (PStr "html") (query !! "format")
             else of_str fmt in
  fmt_lower ← py_lower fmt;
  match first_type CONTENT_TYPES fmt_lower with
  | Some tname => Ok tname
  | None =>
      match inline_type fmt_lower with
      | Some tname => Ok tname
      | None => Ok (accept_loop accepts)
      end
  end.

(** [wants_type] with the four literal checks after the registry loop
    removed, to compare with [wants_type]. *)
Definition wants_type_registry_only (accepts : option string)
    (hdrs : option (gmap string string)) (query : option (gmap string pyval))
    (fmt : option string) : result string :=
  let hdrs := if empty (of_map PStr hdrs) false true
              then headers request else default ∅ hdrs in
  let accepts := empty_if of_str accepts (Some (default "*/*" (hdrs !! "Accept"))) in
  let accepts := parse_header (default "" accepts) in
  query ← (if empty (of_map id query) false false
           then merge_frm true true true None else Ok (default ∅ query));
  let fmt := if empty (of_str fmt) false false
             then default (PStr "html") (query !! "format")
             else of_str fmt in
  fmt_lower ← py_lower fmt;
  match first_type CONTENT_TYPES fmt_lower with
  | Some tname => Ok tname
  | None => Ok (accept_loop accepts)
  end.

(** ** Names for what [wants_type] computes on the way *)

(** The Accept header that gets parsed: the [accepts] argument, or else the
    [Accept] header of [hdrs], or else of the request, or else [*/*]. *)
Definition accept_header (accepts : option string)
    (hdrs : option (gmap string string)) : string :=
  let hdrs := if empty (of_map PStr hdrs) false true
              then headers request else default ∅ hdrs in
  default "" (empty_if of_str accepts (Some (default "*/*" (hdrs !! "Accept")))).

(** The format that gets looked up: the [fmt] argument, or else the
    [format] entry of the parameters, or else [html]. *)
Definition effective_format (query : gmap string pyval) (fmt : option string) : pyval :=
  if empty (of_str fmt) false false
  then default (PStr "html") (query !! "format")
  else of_str fmt.

(** [want_json]; of the keyword arguments it hands on, [fmt] is the one
    [wants_type] takes. *)
Definition want_json (accepts : option string) (hdrs : option (gmap string string))
    (query : option (gmap string pyval)) (fmt : option string) : result bool :=
  if API_ONLY then Ok true
  else t ← wants_type accepts hdrs query fmt; Ok (String.eqb t "json").

End Core.

(** The values [wants_type] can return. *)
Definition formats : list string := ["json"; "text"; "html"; "yaml"; "any"].

(** A request with no headers, no parameters and no body. *)
Definition bare_request : Request :=
  {| headers := ∅; args := ∅; form := ∅; is_json := false; data_json := None |}.

(** ** get_ip *)

(** [s.split(sep)] for a separator of one character. *)
Fixpoint py_split (sep : ascii) (s : string) : list string :=
  match s with
  | EmptyString => [EmptyString]
  | String c t =>
      if Ascii.eqb c sep then EmptyString :: py_split sep t
      else match py_split sep t with
           | [] => [String c EmptyString]
           | h :: r => String c h :: r
           end
  end.

(** [str.upper()] on the ASCII letters; header names are ASCII. *)
Definition upper_ascii (c : ascii) : ascii :=
  let n := nat_of_ascii c in
  if Nat.leb 97 n && Nat.leb n 122 then ascii_of_nat (n - 32) else c.

Fixpoint upper (s : string) : string :=
  match s with
  | EmptyString => EmptyString
  | String c t => String (upper_ascii c) (upper t)
  end.

(** [s.replace(a, b)] for single characters. *)
Fixpoint replace_char (a b : ascii) (s : string) : string :=
  match s with
  | EmptyString => EmptyString
  | String c t => String (if Ascii.eqb c a then b else c) (replace_char a b t)
  end.

(** The key under which werkzeug's [request.headers] finds a header in the
    WSGI environment, [HTTP_] left out: [key.upper().replace("-", "_")].
    Two names that differ in letter case, or in [-] against [_], are the
    same header. *)
Definition environ_key (name : string) : string :=
  replace_char "-" "_" (upper name).

(** [request.headers.get(name)]: the value of the header that [name]
    names, whatever the spelling of either; a request holds a header
    once. *)
Definition header_get (h : gmap string string) (name : string) : option string :=
  snd <$> find (fun kv => String.eqb (environ_key (fst kv)) (environ_key name))
            (map_to_list h).

(** What [get_ip] reads of the configuration: [cf['USE_IP_HEADER']],
    [cf['IP_HEADER']] and the [settings] for fake addresses. *)
Record Settings : Type := {
  USE_IP_HEADER : bool;
  IP_HEADER : string;
  USE_FAKE_IPS : bool;
  FAKE_V4 : string;
  FAKE_V6 : string
}.

Section Ip.

(** [privex.helpers.ip_is_v6]; [None] when it raises, as it may on what
    is not an address. *)
Variable ip_is_v6 : option string → option bool.

(** Flask's [request] and its [remote_addr]. *)
Variable request : Request.
Variable remote_addr : option string.

Variable cf : Settings.

(** [get_ip]; [None] when [ip_is_v6] raises. *)
Definition get_ip : option string :=
  let h := headers request in
  if USE_IP_HEADER cf then
    let ip := default "Unknown IP..." (header_get h (IP_HEADER cf)) in
    let ip := if str_in "," ip then default "" (head (py_split "," ip)) else ip in
    if USE_FAKE_IPS cf then
      v6 ← ip_is_v6 (Some ip);
      Some (if v6 : bool then FAKE_V6 cf else FAKE_V4 cf)
    else Some ip
  else if USE_FAKE_IPS cf then
    v6 ← ip_is_v6 remote_addr;
    Some (if v6 : bool then FAKE_V6 cf else FAKE_V4 cf)
  else
    Some (match remote_addr with
          | Some a => if String.eqb a "" then "Unknown IP..." else a
          | None => "Unknown IP..."
          end).

End Ip.

(** ** get_redis *)

(** A [redis.Redis] client: what it was built from, and a number that
    tells the objects built apart. *)
Record Redis : Type := {
  redis_host : string;
  redis_port : Z;
  redis_id : nat
}.

(** [_STORE], with the number of clients built so far. *)
Record Store : Type := {
  store : gmap string Redis;
  built : nat
}.

(** [get_redis], under the settings [REDIS_HOST] and [REDIS_PORT] in force
    at the call: the client returned and the store afterwards. *)
Definition get_redis (REDIS_HOST : string) (REDIS_PORT : Z) (st : Store) : Redis * Store :=
  match store st !! "redis" with
  | Some r => (r, st)
  | None =>
      let r := {| redis_host := REDIS_HOST; redis_port := REDIS_PORT;
                  redis_id := built st |} in
      (r, {| store := <["redis" := r]> (store st); built := S (built st) |})
  end.

(** Calls of [get_redis] one after the other, each under its settings: the
    clients returned, in order, and the store at the end. *)
Fixpoint get_redis_calls (settings : list (string * Z)) (st : Store) : list Redis * Store :=
  match settings with
  | [] => ([], st)
  | (host, port) :: rest =>
      let '(r, st1) := get_redis host port st in
      let '(rs, st2) := get_redis_calls rest st1 in
      (r :: rs, st2)
  end.

(** ** dump_yaml *)

(** Scalars, which are also the keys of dictionaries. *)
Inductive yscalar : Type :=
  | SNone
  | SBool (b : bool)
  | SInt (z : Z)
  | SFloat (f : spec_float)
  | SStr (s : string).

(** The data [dump_yaml] is given.  A dictionary is the list of its items
    in order; a set is the list of its elements in the order of iteration.
    [YObj] is a [DictObject], [DictDataClass] or [Dictable] with its items;
    the last two are taken not to derive from list, tuple, dict or set. *)
Inductive ydata : Type :=
  | YScalar (s : yscalar)
  | YList (l : list ydata)
  | YTuple (l : list ydata)
  | YSet (l : list ydata)
  | YDict (items : list (yscalar * ydata))
  | YObj (items : list (yscalar * ydata)).

(** [_fix_dictobj], the inner function of [dump_yaml]. *)
Fixpoint fix_dictobj (d : ydata) : ydata :=
  match d with
  | YObj items | YDict items => YDict (map (fun kv => (fst kv, fix_dictobj (snd kv))) items)
  | _ => d
  end.

(** No dict-like object at the value itself nor under the values of
    dictionaries; the elements of lists, tuples and sets are not looked
    at. *)
Fixpoint dict_plain (d : ydata) : bool :=
  match d with
  | YObj _ => false
  | YDict items => forallb (fun kv => dict_plain (snd kv)) items
  | _ => true
  end.

Section Yaml.

(** [yaml.dump(data, **kwargs)], the keyword arguments fixed. *)
Variable yaml_dump : ydata → string.

(** [list(s)] for a string: its characters, each a string. *)
Variable characters : string → list string.

(** The first step of [dump_yaml]: [dict(data)], and [list(data)] when
    that raises, for what is a [DictObject] or no list, tuple, dict or
    set; other data is left as it is. *)
Definition dict_or_list (data : ydata) : result ydata :=
  match data with
  | YObj items => Ok (YDict items)
  | YScalar (SStr s) =>
      if String.eqb s "" then Ok (YDict [])
      else Ok (YList (map (fun c => YScalar (SStr c)) (characters s)))
  | YScalar _ => Raise TypeError
  | _ => Ok data
  end.

(** What [dump_yaml] hands to [yaml.dump]. *)
Definition dump_yaml_data (data : ydata) : result ydata :=
  data ← dict_or_list data;
  let data := match data with
              | YSet l | YTuple l => YList (map fix_dictobj l)
              | _ => data
              end in
  let data := match data with
              | YDict items => YDict (map (fun kv => (fst kv, fix_dictobj (snd kv))) items)
              | _ => data
              end in
  Ok data.

Definition dump_yaml (data : ydata) : result string :=
  data ← dump_yaml_data data; Ok (yaml_dump data).

End Yaml.

(** ** A reference Accept-header parser *)

(** The [accept_types] package is a dependency, not part of the module.
    The theorems below hold for every parser; where one needs to know what
    the parser makes of a particular header, that is a hypothesis, and the
    parser of this module shows that the hypothesis can be met.  No
    theorem is about this parser. *)
Module AcceptTypes.

Fixpoint split_on (sep : ascii) (s : string) : list string :=
  match s with
  | EmptyString => [EmptyString]
  | String c t =>
      if Ascii.eqb c sep then EmptyString :: split_on sep t
      else match split_on sep t with
           | [] => [String c EmptyString]
           | h :: r => String c h :: r
           end
  end.

Fixpoint lstrip (s : string) : string :=
  match s with
  | String c t => if Ascii.eqb c " " then lstrip t else s
  | EmptyString => EmptyString
  end.

Fixpoint rstrip (s : string) : string :=
  match s with
  | EmptyString => EmptyString
  | String c t =>
      let t' := rstrip t in
      if Ascii.eqb c " " && String.eqb t' "" then EmptyString else String c t'
  end.

Definition strip (s : string) : string := rstrip (lstrip s).

Definition is_digit (c : ascii) : bool :=
  let n := nat_of_ascii c in Nat.leb 48 n && Nat.leb n 57.

Definition is_alpha (c : ascii) : bool :=
  let n := nat_of_ascii (lower_ascii c) in Nat.leb 97 n && Nat.leb n 122.

(** Characters of a media range: letters, digits and [. _ - + * /]. *)
Definition mime_char (c : ascii) : bool :=
  is_digit c || is_alpha c || existsb (Ascii.eqb c) ["."; "_"; "-"; "+"; "*"; "/"]%char.

Fixpoint all_chars (p : ascii → bool) (s : string) : bool :=
  match s with
  | EmptyString => true
  | String c t => p c && all_chars p t
  end.

Definition valid_mime_type (s : string) : bool :=
  negb (String.eqb s "") && all_chars mime_char s.

(** The digits of [s] read as a number, with the power of ten that has
    as many zeros as [s] has digits. *)
Fixpoint digits (s : string) (acc : Z) (scale : positive) : Z * positive :=
  match s with
  | EmptyString => (acc, scale)
  | String c t => digits t (10 * acc + Z.of_nat (nat_of_ascii c - 48)) (10 * scale)
  end.

Definition valid_digits (s : string) : bool :=
  negb (String.eqb s "") && all_chars is_digit s.

(** A quality value, [d] or [d.ddd]. *)
Definition qvalue (s : string) : option Q :=
  match split_on "." s with
  | [i] =>
      if valid_digits i then Some (inject_Z (fst (digits i 0 1))) else None
  | [i; f] =>
      if valid_digits i && all_chars is_digit f then
        let '(n, p) := digits f (fst (digits i 0 1)) 1 in Some (Qmake n p)
      else None
  | _ => None
  end.

(** The weight announced by the parameters after the media range: the
    first well-formed [q=...], and 1 without one. *)
Fixpoint get_weight (params : list string) : Q :=
  match params with
  | [] => 1
  | p :: rest =>
      match strip p with
      | String "q" (String "=" v) =>
          match qvalue v with
          | Some q => q
          | None => get_weight rest
          end
      | _ => get_weight rest
      end
  end.

Definition parse_entry (raw : string) : option AcceptableType :=
  match split_on ";" (strip raw) with
  | [] => None
  | m :: params =>
      let m := strip m in
      if valid_mime_type m then Some {| mime_type := m; weight := get_weight params |}
      else None
  end.

(** Insertion that keeps entries of equal weight in header order. *)
Fixpoint insert_entry (x : AcceptableType) (l : list AcceptableType) : list AcceptableType :=
  match l with
  | [] => [x]
  | y :: r =>
      if Qle_bool (weight y) (weight x) then x :: l else y :: insert_entry x r
  end.

(** Modelled from the spec: [accept_types.parse_header], which the
    module imports and the repository does not contain.  The header is
    split at commas, an item that is not a media range is dropped, and
    the entries come out by descending weight, ties in header order. *)
Definition parse_header (header : string) : list AcceptableType :=
  foldr insert_entry [] (omap parse_entry (split_on "," header)).

End AcceptTypes.


(** * Properties *)

(** ** Lists of aliases *)

Lemma in_list_true (s : string) (l : list string) : in_list s l = true ↔ s ∈ l.
Proof.
  unfold in_list. rewrite existsb_exists. split.
  - intros (x & Hin & Heq). apply String.eqb_eq in Heq. subst x.
    by apply list_elem_of_In.
  - intros Hin. exists s. split; [by apply list_elem_of_In | apply String.eqb_refl].
Qed.

(** Case analysis on membership in a list that is written out. *)
Ltac each_member H :=
  repeat (apply elem_of_cons in H as [-> | H]);
  [ .. | by apply elem_of_nil in H ].

(** Membership of a literal in a list that is written out. *)
Ltac in_written_list :=
  unfold formats;
  repeat first [ apply list_elem_of_here | apply list_elem_of_further ].

Lemma first_type_name (types : list (string * list string)) (s t : string) :
  first_type types s = Some t → t ∈ types.*1.
Proof.
  induction types as [| [tname tlist] rest IH]; simpl; [done |].
  destruct (in_list s tlist).
  - intros [= <-]. apply list_elem_of_here.
  - intros H. apply list_elem_of_further. auto.
Qed.

Lemma first_type_formats (s t : string) :
  first_type CONTENT_TYPES s = Some t → t ∈ formats.
Proof.
  intros H%first_type_name. unfold formats.
  change (t ∈ ["json"; "text"; "html"; "yaml"]) in H.
  each_member H; in_written_list.
Qed.

(** An alias that stands in the list of a format is resolved to that
    format: no alias stands in two lists. *)
Lemma first_type_member (name : string) (tlist : list string) (s : string) :
  (name, tlist) ∈ CONTENT_TYPES → in_list s tlist = true →
  first_type CONTENT_TYPES s = Some name.
Proof.
  intros Hreg Hin. unfold CONTENT_TYPES in Hreg.
  repeat (apply elem_of_cons in Hreg as [[= -> ->] | Hreg]);
    [ .. | by apply elem_of_nil in Hreg ];
    apply in_list_true in Hin; each_member Hin; reflexivity.
Qed.

(** Each literal list of [wants_type] is part of the registry's list. *)
Lemma inline_type_registry (s t : string) :
  inline_type s = Some t → first_type CONTENT_TYPES s = Some t.
Proof.
  unfold inline_type.
  destruct (in_list s inline_json) eqn:Hj.
  { intros [= <-]. apply in_list_true in Hj. each_member Hj; reflexivity. }
  destruct (in_list s inline_text) eqn:Ht.
  { intros [= <-]. apply in_list_true in Ht. each_member Ht; reflexivity. }
  destruct (in_list s inline_html) eqn:Hh.
  { intros [= <-]. apply in_list_true in Hh. each_member Hh; reflexivity. }
  destruct (in_list s inline_yaml) eqn:Hy; [| done].
  intros [= <-]. apply in_list_true in Hy. each_member Hy; reflexivity.
Qed.

Lemma inline_type_unregistered (s : string) :
  first_type CONTENT_TYPES s = None → inline_type s = None.
Proof.
  intros Hnone. destruct (inline_type s) as [t |] eqn:Hin; [| done].
  apply inline_type_registry in Hin. congruence.
Qed.

(** ** The Accept loop *)

Lemma accept_loop_formats (accepts : list AcceptableType) :
  accept_loop accepts ∈ formats.
Proof.
  induction accepts as [| mt rest IH]; cbn [accept_loop].
  - in_written_list.
  - destruct (str_in "html" (mime_type mt)); [in_written_list |].
    destruct (first_type CONTENT_TYPES (lower (mime_type mt))) as [t |] eqn:Ht.
    + by eapply first_type_formats.
    + exact IH.
Qed.

(** Entries that are not registered are passed over. *)
Lemma accept_loop_skip (pre rest : list AcceptableType) :
  Forall (λ x, first_type CONTENT_TYPES (lower (mime_type x)) = None) pre →
  accept_loop (pre ++ rest)%list = accept_loop rest
  ∨ accept_loop (pre ++ rest)%list = "html".
Proof.
  induction 1 as [| x pre Hx Hpre IH]; cbn [app accept_loop]; [by left |].
  destruct (str_in "html" (mime_type x)); [by right |].
  by rewrite Hx.
Qed.

Lemma accept_loop_html (mt : AcceptableType) (rest : list AcceptableType) :
  str_in "html" (mime_type mt) = true → accept_loop (mt :: rest) = "html".
Proof. intros H. cbn [accept_loop]. by rewrite H. Qed.

(** ** wants_type *)

Section Resolve.

Variable ph : string → list AcceptableType.
Variable rq : Request.

(** With a parameter map given, [wants_type] is the lookup of the effective
    format, then the Accept loop. *)
Lemma wants_type_unfold accepts hdrs (q : gmap string pyval) fmt :
  wants_type ph rq accepts hdrs (Some q) fmt =
  s ← py_lower (effective_format q fmt);
  match first_type CONTENT_TYPES s with
  | Some t => Ok t
  | None =>
      match inline_type s with
      | Some t => Ok t
      | None => Ok (accept_loop (ph (accept_header rq accepts hdrs)))
      end
  end.
Proof. reflexivity. Qed.

Lemma effective_format_str (params : gmap string string) fmt :
  ∃ s, effective_format (PStr <$> params) fmt = PStr s.
Proof.
  unfold effective_format.
  destruct (empty (of_str fmt) false false) eqn:He.
  - rewrite lookup_fmap. destruct (params !! "format"); simpl; eauto.
  - destruct fmt as [s |]; simpl in *; [eauto | discriminate].
Qed.

Lemma effective_format_explicit (q : gmap string pyval) (s : string) :
  s ≠ "" → effective_format q (Some s) = PStr s.
Proof.
  intros Hs. unfold effective_format, empty. simpl.
  destruct (String.eqb_spec s ""); [done | reflexivity].
Qed.

Lemma effective_format_default (q : gmap string pyval) fmt :
  fmt = None ∨ fmt = Some "" → q !! "format" = None →
  effective_format q fmt = PStr "html".
Proof.
  intros [-> | ->] Hq; unfold effective_format; simpl; by rewrite Hq.
Qed.

(** Without a format, neither as an argument nor among the parameters, the
    default [html] is looked up and found: the Accept header is parsed but
    its entries are not looked at. *)
Lemma wants_type_default accepts hdrs (q : gmap string pyval) fmt :
  fmt = None ∨ fmt = Some "" → q !! "format" = None →
  wants_type ph rq accepts hdrs (Some q) fmt = Ok "html".
Proof.
  intros Hfmt Hq. rewrite wants_type_unfold.
  by rewrite (effective_format_default q fmt Hfmt Hq).
Qed.

(** A format that is given and not registered leaves the decision to the
    Accept loop. *)
Lemma wants_type_unregistered accepts hdrs (q : gmap string pyval) fmt s :
  py_lower (effective_format q fmt) = Ok s →
  first_type CONTENT_TYPES s = None →
  wants_type ph rq accepts hdrs (Some q) fmt
  = Ok (accept_loop (ph (accept_header rq accepts hdrs))).
Proof.
  intros Hs Hnone. rewrite wants_type_unfold, Hs. cbn [mbind result_bind].
  by rewrite Hnone, (inline_type_unregistered s Hnone).
Qed.

(** C3, as amended.  For every explicit format (given or not), every
    parameter map handed over whose values are strings, and every Accept
    header, also an empty one, that the parser returns on (the parser is
    any function here), wants_type returns, and what it returns is one of
    json, text, html, yaml, any.  A parameter map with another value
    under [format] makes it raise: see [wants_type_format_list_raises]. *)
Theorem wants_type_total accepts hdrs (params : gmap string string) fmt :
  ∃ t, wants_type ph rq accepts hdrs (Some (PStr <$> params)) fmt = Ok t ∧ t ∈ formats.
Proof.
  rewrite wants_type_unfold.
  destruct (effective_format_str params fmt) as [s ->].
  cbn [py_lower mbind result_bind].
  destruct (first_type CONTENT_TYPES (lower s)) as [t |] eqn:Hreg.
  { exists t. split; [done | by eapply first_type_formats]. }
  rewrite (inline_type_unregistered _ Hreg).
  eexists. split; [done | apply accept_loop_formats].
Qed.

(** C1. Without a format argument and without a [format] parameter the
    call does not get to the Accept header: for an empty parameter map and
    the Accept header [application/json] it returns [html], the default
    format, although the Accept loop on that entry gives [json]. *)
Theorem wants_type_accept_json_default hdrs :
  wants_type ph rq (Some "application/json") hdrs (Some ∅) None = Ok "html"
  ∧ ∀ w rest, accept_loop ({| mime_type := "application/json"; weight := w |} :: rest)
              = "json".
Proof.
  split; [| reflexivity].
  apply wants_type_default; [by left | apply lookup_empty].
Qed.

(** C2. For an empty parameter map, no format argument and the Accept
    header [application/octet-stream] the call returns [html], the default
    format, although the Accept loop on that entry alone gives [any]. *)
Theorem wants_type_accept_unknown_default hdrs :
  wants_type ph rq (Some "application/octet-stream") hdrs (Some ∅) None = Ok "html"
  ∧ ∀ w, accept_loop [{| mime_type := "application/octet-stream"; weight := w |}]
         = "any".
Proof.
  split; [| reflexivity].
  apply wants_type_default; [by left | apply lookup_empty].
Qed.

(** C6. An explicit format that is, up to case, an alias of the registry
    decides the result, whatever the parameter map and the Accept header
    are. *)
Theorem explicit_format_wins accepts hdrs (q : gmap string pyval) fmt name tlist :
  fmt ≠ "" →
  (name, tlist) ∈ CONTENT_TYPES →
  in_list (lower fmt) tlist = true →
  wants_type ph rq accepts hdrs (Some q) (Some fmt) = Ok name.
Proof.
  intros Hfmt Hreg Hin. rewrite wants_type_unfold.
  rewrite (effective_format_explicit q fmt Hfmt). cbn [py_lower mbind result_bind].
  by rewrite (first_type_member name tlist (lower fmt) Hreg Hin).
Qed.

(** C7. When the effective format is no alias, the Accept loop decides, and
    an entry whose MIME type contains [html] ends it with [html] as soon as
    the loop gets to it (the entries before it being unregistered),
    whatever that entry or the later ones would resolve to.  The header
    [text/html;q=1.0, application/json;q=0.5] with no format and no
    parameters gives [html]. *)
Theorem accept_html_short_circuit :
  (∀ accepts hdrs (q : gmap string pyval) fmt s (pre post : list AcceptableType) mt,
     py_lower (effective_format q fmt) = Ok s →
     first_type CONTENT_TYPES s = None →
     ph (accept_header rq accepts hdrs) = (pre ++ mt :: post)%list →
     Forall (λ x, first_type CONTENT_TYPES (lower (mime_type x)) = None) pre →
     str_in "html" (mime_type mt) = true →
     wants_type ph rq accepts hdrs (Some q) fmt = Ok "html")
  ∧ wants_type ph rq (Some "text/html;q=1.0, application/json;q=0.5") None (Some ∅) None
    = Ok "html".
Proof.
  split.
  - intros accepts hdrs q fmt s pre post mt Hs Hnone Hparse Hpre Hhtml.
    rewrite (wants_type_unregistered accepts hdrs q fmt s Hs Hnone), Hparse.
    f_equal. destruct (accept_loop_skip pre (mt :: post) Hpre) as [-> | ->]; [| done].
    by apply accept_loop_html.
  - apply wants_type_default; [by left | apply lookup_empty].
Qed.



(** C10. Each of the four literal lists tested after the registry loop is
    part of the registry's list for the same format, so dropping the four
    tests changes the result of no call. *)
Theorem inline_checks_redundant accepts hdrs query fmt :
  (inline_json ⊆ aliases "json" ∧ inline_text ⊆ aliases "text"
   ∧ inline_html ⊆ aliases "html" ∧ inline_yaml ⊆ aliases "yaml")
  ∧ wants_type_registry_only ph rq accepts hdrs query fmt
    = wants_type ph rq accepts hdrs query fmt.
Proof.
  split.
  - repeat split; intros x Hx; each_member Hx; apply in_list_true; reflexivity.
  - unfold wants_type_registry_only, wants_type.
    destruct (if empty (of_map id query) false false
              then merge_frm rq true true true None
              else Ok (default ∅ query)) as [q | e]; cbn [mbind result_bind]; [| done].
    destruct (py_lower _) as [s | e]; cbn [mbind result_bind]; [| done].
    destruct (first_type CONTENT_TYPES s) eqn:Hreg; [done |].
    by rewrite (inline_type_unregistered s Hreg).
Qed.

(** C8. With [API_ONLY] set, want_json answers true whatever the Accept
    header, the headers and the parameters are, [text/html] included and
    without calling wants_type; with [API_ONLY] unset it answers true
    exactly when wants_type answers [json]. *)
Theorem want_json_api_only accepts hdrs query fmt :
  want_json ph rq true accepts hdrs query fmt = Ok true
  ∧ want_json ph rq true (Some "text/html") hdrs query fmt = Ok true
  ∧ (want_json ph rq false accepts hdrs query fmt = Ok true
     ↔ wants_type ph rq accepts hdrs query fmt = Ok "json").
Proof.
  split; [reflexivity | split; [reflexivity |]].
  unfold want_json.
  destruct (wants_type ph rq accepts hdrs query fmt) as [t | e];
    cbn [mbind result_bind].
  - split.
    + intros [= Ht]. apply String.eqb_eq in Ht. by subst t.
    + intros [= ->]. reflexivity.
  - split; discriminate.
Qed.

End Resolve.

(** ** json_frm and merge_frm *)

Section Merge.

Variable rq : Request.

(** What [merge_frm] gets from [json_frm]. *)
Lemma json_frm_forced :
  json_frm rq true true true FbDict None true =
  match data_json rq with
  | Some j => Ok (if empty j true true then PDict ∅ else j)
  | None => Ok (PDict ∅)
  end.
Proof.
  unfold json_frm, get_json, pick_req. cbn [negb andb].
  destruct (data_json rq) as [j |]; cbn [mbind result_bind]; [| reflexivity].
  by destruct (empty j true true).
Qed.

(** The merge of the query string and the form alone. *)
Lemma merge_frm_get_post use_get use_post req :
  merge_frm rq use_get use_post false req =
  Ok (let r := pick_req rq req in
      let data := if use_get then overlay ∅ (args r) else ∅ in
      if use_post then overlay data (form r) else data).
Proof. reflexivity. Qed.

(** A JSON part that is absent or empty adds nothing. *)
Lemma merge_frm_json_nothing use_get use_post req :
  data_json rq = None
  ∨ (∃ j, data_json rq = Some j ∧ empty j true true = true) →
  merge_frm rq use_get use_post true req = merge_frm rq use_get use_post false req.
Proof.
  intros Hj. unfold merge_frm. rewrite json_frm_forced.
  assert (match data_json rq with
          | Some j => Ok (if empty j true true then PDict ∅ else j)
          | None => Ok (PDict ∅)
          end = Ok (PDict ∅)) as ->.
  { destruct Hj as [-> | (j & -> & ->)]; reflexivity. }
  cbn [mbind result_bind as_mapping]. unfold overlay.
  by rewrite (left_id_L ∅ (∪)).
Qed.

(** A JSON part that is neither empty nor an object cannot be spread into
    the result. *)
Lemma merge_frm_json_not_mapping use_get use_post req j :
  data_json rq = Some j → empty j true true = false → as_mapping j = Raise TypeError →
  merge_frm rq use_get use_post true req = Raise TypeError.
Proof.
  intros Hj Hne Hmap. unfold merge_frm. rewrite json_frm_forced, Hj, Hne.
  cbn [mbind result_bind]. by rewrite Hmap.
Qed.

(** A JSON object is laid over the form, and the form over the query. *)
Lemma merge_frm_json_object (j : gmap string pyval) :
  data_json rq = Some (PDict j) →
  merge_frm rq true true true None = Ok (j ∪ (form rq ∪ args rq)).
Proof.
  intros Hj. unfold merge_frm. rewrite json_frm_forced, Hj.
  unfold empty. cbn [in_check len_zero orb andb pick_req].
  case_bool_decide as Hempty; cbn [mbind result_bind as_mapping]; unfold overlay.
  - subst j. by rewrite (right_id_L ∅ (∪)).
  - by rewrite (right_id_L ∅ (∪)).
Qed.

End Merge.

(** C4. merge_frm does raise for some request bodies: a body that is a
    JSON array with an element is handed on by json_frm as a list, and
    spreading it into the result raises TypeError, whichever of the other
    sources are enabled. *)
Theorem merge_frm_json_array_raises hs a f b use_get use_post req :
  merge_frm {| headers := hs; args := a; form := f; is_json := b;
               data_json := Some (PList [PInt 1]) |} use_get use_post true req
  = Raise TypeError.
Proof. by apply (merge_frm_json_not_mapping _ _ _ _ (PList [PInt 1])). Qed.

(** C5. With the three sources enabled and a JSON object as body, the
    result is the query laid under the form laid under the body: a key is
    looked up in the body, then in the form, then in the query.  For the
    query {a:1}, the form {a:2, b:3} and the body {a:4} it is {a:4, b:3}. *)
Theorem merge_frm_precedence hs a f b (j : gmap string pyval) :
  (∃ m, merge_frm {| headers := hs; args := a; form := f; is_json := b;
                     data_json := Some (PDict j) |} true true true None = Ok m
        ∧ ∀ k, m !! k = match j !! k with
                        | Some v => Some v
                        | None => match f !! k with
                                  | Some v => Some v
                                  | None => a !! k
                                  end
                        end)
  ∧ merge_frm {| headers := hs;
                 args := {[ "a" := PInt 1 ]};
                 form := {[ "a" := PInt 2; "b" := PInt 3 ]};
                 is_json := b;
                 data_json := Some (PDict {[ "a" := PInt 4 ]}) |} true true true None
    = Ok {[ "a" := PInt 4; "b" := PInt 3 ]}.
Proof.
  split.
  - eexists. split; [by apply merge_frm_json_object |].
    intros k. cbn [form args]. rewrite !lookup_union.
    by destruct (j !! k), (f !! k), (a !! k).
  - etrans; [by apply merge_frm_json_object |]. cbn [form args].
    reflexivity.
Qed.

(** X1. Without a format, neither as an argument nor under [format] in the
    parameter map, wants_type returns [html] whatever the Accept header
    and the headers are. *)
Theorem no_format_gives_html ph rq accepts hdrs (q : gmap string pyval) fmt :
  fmt = None ∨ fmt = Some "" → q !! "format" = None →
  wants_type ph rq accepts hdrs (Some q) fmt = Ok "html".
Proof. intros Hfmt Hq. by apply wants_type_default. Qed.

(** X2. When the body of the request does not parse as JSON, or parses to
    an empty value, merge_frm returns, and returns what the enabled ones of
    the query string and the form give. *)
Theorem merge_frm_json_failure rq use_get use_post req :
  data_json rq = None
  ∨ (∃ j, data_json rq = Some j ∧ empty j true true = true) →
  merge_frm rq use_get use_post true req =
  Ok (let r := pick_req rq req in
      let data := if use_get then overlay ∅ (args r) else ∅ in
      if use_post then overlay data (form r) else data).
Proof.
  intros Hj. rewrite (merge_frm_json_nothing rq use_get use_post req Hj).
  apply merge_frm_get_post.
Qed.

(** ** Instances *)

(** The instance of C6 that the specification gives: [yml] against the
    Accept header [text/html]. *)
Lemma explicit_format_wins_yml :
  wants_type AcceptTypes.parse_header bare_request
    (Some "text/html") None (Some ∅) (Some "yml") = Ok "yaml".
Proof.
  apply (explicit_format_wins AcceptTypes.parse_header bare_request
           (Some "text/html") None ∅ "yml" "yaml" (aliases "yaml")).
  - discriminate.
  - unfold CONTENT_TYPES. in_written_list.
  - reflexivity.
Defined.

(** The comparison ignores the case of the format. *)
Example explicit_format_upper_case ph rq :
  wants_type ph rq (Some "text/html") None (Some ∅) (Some "YML") = Ok "yaml"
  ∧ wants_type ph rq None None (Some ∅) (Some "Application/JSON") = Ok "json".
Proof. split; reflexivity. Qed.

(** An instance of C7: the format [xml] is no alias, [image/png] is passed
    over, and [text/html] ends the loop before [application/json]. *)
Lemma accept_html_short_circuit_png :
  wants_type AcceptTypes.parse_header bare_request
    (Some "image/png, text/html;q=0.9, application/json;q=0.8") None (Some ∅)
    (Some "xml") = Ok "html".
Proof.
  apply (proj1 (accept_html_short_circuit AcceptTypes.parse_header bare_request)
           (Some "image/png, text/html;q=0.9, application/json;q=0.8") None ∅
           (Some "xml") "xml"
           [{| mime_type := "image/png"; weight := 1 |}]
           [{| mime_type := "application/json"; weight := 8 # 10 |}]
           {| mime_type := "text/html"; weight := 9 # 10 |}).
  - reflexivity.
  - reflexivity.
  - vm_compute. reflexivity.
  - repeat constructor.
  - reflexivity.
Defined.


(** An instance of X1: the Accept header [application/json] is not looked at. *)
Lemma no_format_gives_html_json :
  wants_type AcceptTypes.parse_header bare_request
    (Some "application/json") None (Some ∅) None = Ok "html".
Proof.
  apply (no_format_gives_html AcceptTypes.parse_header bare_request
           (Some "application/json") None ∅ None).
  - left. reflexivity.
  - reflexivity.
Defined.

(** An instance of X2: no body at all. *)
Lemma merge_frm_json_failure_bare :
  merge_frm bare_request true true true None = Ok ∅.
Proof.
  apply (merge_frm_json_failure bare_request true true None).
  left. reflexivity.
Defined.


(** * Further properties of the module *)

(** ** The registry and the Accept loop *)

Lemma first_type_in (types : list (string * list string)) (s t : string) :
  first_type types s = Some t →
  ∃ tlist, (t, tlist) ∈ types ∧ in_list s tlist = true.
Proof.
  induction types as [| [tname tlist] rest IH]; cbn [first_type]; [done |].
  destruct (in_list s tlist) eqn:Hin.
  - intros [= <-]. exists tlist. split; [apply list_elem_of_here | done].
  - intros (l & Hl & Hs)%IH. exists l. split; [by apply list_elem_of_further | done].
Qed.

Lemma prefix_lower (p s : string) :
  String.prefix p s = true → String.prefix (lower p) (lower s) = true.
Proof.
  revert s. induction p as [| a p IH]; intros s; [by destruct s |].
  destruct s as [| b s]; cbn [String.prefix lower]; [done |].
  destruct (ascii_dec a b) as [-> | Hab]; [| done].
  intros Hp. destruct (ascii_dec (lower_ascii b) (lower_ascii b)); [auto | done].
Qed.

Lemma str_in_lower (p s : string) :
  str_in p s = true → str_in (lower p) (lower s) = true.
Proof.
  induction s as [| c s IH]; cbn [str_in lower].
  - rewrite !orb_false_r. apply (prefix_lower p "").
  - intros [Hp | Hs]%orb_true_iff; apply orb_true_iff.
    + left. apply (prefix_lower p (String c s) Hp).
    + right. auto.
Qed.

(** Case analysis on the registry entry a name and list belong to. *)
Ltac each_format H :=
  unfold CONTENT_TYPES in H;
  repeat (apply elem_of_cons in H as [[= -> ->] | H]);
  [ .. | by apply elem_of_nil in H ].

(** X3. The registry is consistent: no alias is listed twice, neither in
    one list nor under two formats, and every alias is written in lower
    case; hence every alias resolves to the format it is listed under. *)
Theorem registry_aliases_distinct :
  NoDup (concat CONTENT_TYPES.*2)
  ∧ Forall (λ a, lower a = a) (concat CONTENT_TYPES.*2)
  ∧ ∀ name tlist a, (name, tlist) ∈ CONTENT_TYPES → a ∈ tlist →
                    first_type CONTENT_TYPES (lower a) = Some name.
Proof.
  split; [| split].
  - apply (bool_decide_unpack _). by vm_compute.
  - apply (bool_decide_unpack _). by vm_compute.
  - intros name tlist a Hreg Ha.
    each_format Hreg; each_member Ha; reflexivity.
Qed.

(** X4. The test for [html] in the Accept loop agrees with the registry:
    an entry whose MIME type contains [html] and is registered is
    registered under [html], so the loop never answers [html] for an entry
    that the registry gives to another format. *)
Theorem html_entry_registered_html (m t : string) :
  str_in "html" m = true →
  first_type CONTENT_TYPES (lower m) = Some t →
  t = "html".
Proof.
  intros Hhtml%str_in_lower (tlist & Hreg & Hin)%first_type_in.
  change (lower "html") with "html" in Hhtml.
  remember (lower m) as s eqn:Hs. clear Hs m.
  apply in_list_true in Hin.
  each_format Hreg; [| | done |];
    each_member Hin; vm_compute in Hhtml; discriminate.
Qed.

(** X5. The Accept loop answers [any] exactly when no entry contains
    [html] and no entry is registered. *)
Theorem accept_loop_any (accepts : list AcceptableType) :
  accept_loop accepts = "any"
  ↔ Forall (λ mt, str_in "html" (mime_type mt) = false
                  ∧ first_type CONTENT_TYPES (lower (mime_type mt)) = None) accepts.
Proof.
  induction accepts as [| mt rest IH]; cbn [accept_loop].
  - split; [constructor | done].
  - destruct (str_in "html" (mime_type mt)) eqn:Hhtml.
    { split; [discriminate | intros [[? _] _]%Forall_cons; congruence]. }
    destruct (first_type CONTENT_TYPES (lower (mime_type mt))) as [t |] eqn:Ht.
    + split; [| intros [[_ ?] _]%Forall_cons; congruence].
      intros ->. apply first_type_name in Ht.
      change ("any" ∈ ["json"; "text"; "html"; "yaml"]) in Ht.
      repeat (apply elem_of_cons in Ht as [Ht | Ht]; [discriminate |]).
      by apply elem_of_nil in Ht.
    + rewrite IH. split; [by constructor | by intros [_ ?]%Forall_cons].
Qed.

(** ** Where wants_type takes its inputs from *)

Section Inputs.

Variable ph : string → list AcceptableType.
Variable rq : Request.

(** [wants_type] reads [accepts] and [hdrs] through the Accept header they
    determine, and nothing else of them. *)
Lemma wants_type_unfold_any accepts hdrs query fmt :
  wants_type ph rq accepts hdrs query fmt =
  q ← (if empty (of_map id query) false false
       then merge_frm rq true true true None else Ok (default ∅ query));
  s ← py_lower (effective_format q fmt);
  match first_type CONTENT_TYPES s with
  | Some t => Ok t
  | None =>
      match inline_type s with
      | Some t => Ok t
      | None => Ok (accept_loop (ph (accept_header rq accepts hdrs)))
      end
  end.
Proof. reflexivity. Qed.

Lemma accept_header_argument (r : Request) (a : string) hdrs :
  a ≠ "" → accept_header r (Some a) hdrs = a.
Proof.
  intros Ha. unfold accept_header, empty_if, empty. cbn [of_str in_check andb orb].
  rewrite orb_false_r. by destruct (String.eqb_spec a "").
Qed.

Lemma accept_header_no_entry accepts (h : gmap string string) :
  h ≠ ∅ → h !! "Accept" = None → accepts = None ∨ accepts = Some "" →
  accept_header rq accepts (Some h) = "*/*".
Proof.
  intros Hh Hacc Ha. unfold accept_header, empty_if, empty.
  cbn [of_map in_check len_zero andb orb].
  rewrite bool_decide_eq_false_2 by (by intros ?%fmap_empty_inv).
  change (default ∅ (Some h)) with h. rewrite Hacc.
  by destruct Ha as [-> | ->].
Qed.

(** X6. A non-empty [accepts] argument is the Accept header that counts:
    with it (and the parameters given) the result depends neither on the
    headers argument nor on the request being served. *)
Theorem accepts_argument_overrides (rq' : Request) (a : string) hdrs hdrs'
    (q : gmap string pyval) fmt :
  a ≠ "" →
  wants_type ph rq (Some a) hdrs (Some q) fmt
  = wants_type ph rq' (Some a) hdrs' (Some q) fmt.
Proof.
  intros Ha. rewrite !wants_type_unfold.
  by rewrite (accept_header_argument rq a hdrs Ha),
             (accept_header_argument rq' a hdrs' Ha).
Qed.

(** X7. A headers argument that is not empty and has no [Accept] entry
    stands for the header [*/*]: the Accept header of the request being
    served is not consulted then. *)
Theorem headers_without_accept accepts (h : gmap string string) query fmt :
  h ≠ ∅ → h !! "Accept" = None → accepts = None ∨ accepts = Some "" →
  wants_type ph rq accepts (Some h) query fmt
  = wants_type ph rq (Some "*/*") None query fmt.
Proof.
  intros Hh Hacc Ha. rewrite !wants_type_unfold_any.
  by rewrite (accept_header_no_entry accepts h Hh Hacc Ha).
Qed.

(** X8. With the parameters omitted, wants_type takes them from
    merge_frm(): a [format] member of a JSON object body decides like an
    explicit format, whatever [format] the query string and the form
    carry. *)
Theorem body_format_decides accepts hdrs fmt (j : gmap string pyval) (f : string) :
  data_json rq = Some (PDict j) → j !! "format" = Some (PStr f) →
  fmt = None ∨ fmt = Some "" →
  wants_type ph rq accepts hdrs None fmt
  = wants_type ph rq accepts hdrs (Some {[ "format" := PStr f ]}) None.
Proof.
  intros Hbody Hf Hfmt.
  rewrite (wants_type_unfold ph rq accepts hdrs {[ "format" := PStr f ]} None).
  assert (effective_format {[ "format" := PStr f ]} None = PStr f) as ->.
  { unfold effective_format. cbn [of_str empty in_check orb].
    by rewrite lookup_singleton_eq. }
  rewrite wants_type_unfold_any. cbn [of_map empty in_check orb andb].
  rewrite (merge_frm_json_object rq j Hbody). cbn [mbind result_bind].
  assert (effective_format (j ∪ (form rq ∪ args rq)) fmt = PStr f) as ->; [| done].
  unfold effective_format.
  destruct Hfmt as [-> | ->]; cbn [of_str empty in_check orb String.eqb];
    by rewrite (lookup_union_Some_l _ _ _ _ Hf).
Qed.

(** X9. With the parameters omitted, a body that is JSON but no object
    (and not empty) makes wants_type raise TypeError, and want_json with
    it, also when an explicit format is given. *)
Theorem non_object_body_raises accepts hdrs fmt (j : pyval) :
  data_json rq = Some j → empty j true true = false →
  as_mapping j = Raise TypeError →
  wants_type ph rq accepts hdrs None fmt = Raise TypeError
  ∧ want_json ph rq false accepts hdrs None fmt = Raise TypeError.
Proof.
  intros Hbody Hne Hmap.
  assert (wants_type ph rq accepts hdrs None fmt = Raise TypeError) as Hw.
  { rewrite wants_type_unfold_any. cbn [of_map empty in_check orb andb].
    by rewrite (merge_frm_json_not_mapping rq true true None j Hbody Hne Hmap). }
  split; [done |]. unfold want_json. by rewrite Hw.
Qed.

(** X10. A [format] parameter that is not a string, such as a number of a
    JSON body, makes wants_type raise AttributeError when no explicit
    format is given. *)
Theorem non_string_format_raises accepts hdrs fmt (q : gmap string pyval) (v : pyval) :
  q !! "format" = Some v → (∀ s, v ≠ PStr s) →
  fmt = None ∨ fmt = Some "" →
  wants_type ph rq accepts hdrs (Some q) fmt = Raise AttributeError.
Proof.
  intros Hq Hv Hfmt. rewrite wants_type_unfold.
  assert (effective_format q fmt = v) as ->.
  { unfold effective_format. destruct Hfmt as [-> | ->]; cbn; by rewrite Hq. }
  destruct v; try done. by destruct (Hv s).
Qed.

(** X11. Without a format, neither as an argument nor among the
    parameters, want_json (API_ONLY unset) answers False for every Accept
    header, [application/json] included. *)
Theorem want_json_needs_format accepts hdrs (q : gmap string pyval) fmt :
  fmt = None ∨ fmt = Some "" → q !! "format" = None →
  want_json ph rq false accepts hdrs (Some q) fmt = Ok false.
Proof.
  intros Hfmt Hq. unfold want_json.
  by rewrite (wants_type_default ph rq accepts hdrs q fmt Hfmt Hq).
Qed.

(** X22. wants_type answers [any] only when a format was given, as an
    argument or among the parameters, and only when the Accept loop finds
    nothing: without a format the answer is never [any]. *)
Theorem any_needs_format accepts hdrs (q : gmap string pyval) fmt :
  wants_type ph rq accepts hdrs (Some q) fmt = Ok "any" →
  ((∃ s, fmt = Some s ∧ s ≠ "") ∨ is_Some (q !! "format"))
  ∧ accept_loop (ph (accept_header rq accepts hdrs)) = "any".
Proof.
  intros Hany. split.
  - destruct (q !! "format") as [v |] eqn:Hq; [by right; eauto |]. left.
    destruct fmt as [s |].
    + exists s. split; [done |]. intros ->.
      by rewrite (wants_type_default ph rq accepts hdrs q (Some "")) in Hany; auto.
    + by rewrite (wants_type_default ph rq accepts hdrs q None) in Hany; auto.
  - rewrite wants_type_unfold in Hany.
    destruct (py_lower (effective_format q fmt)) as [s | e]; cbn [mbind result_bind] in Hany;
      [| done].
    destruct (first_type CONTENT_TYPES s) as [t |] eqn:Hreg.
    + injection Hany as ->. apply first_type_name in Hreg.
      change ("any" ∈ ["json"; "text"; "html"; "yaml"]) in Hreg.
      repeat (apply elem_of_cons in Hreg as [Hreg | Hreg]; [discriminate |]).
      by apply elem_of_nil in Hreg.
    + rewrite (inline_type_unregistered s Hreg) in Hany. by injection Hany.
Qed.

End Inputs.

(** ** json_frm and merge_frm, further *)

(** X12. merge_frm with a request of its own takes the query string and
    the form from that request and the JSON body from the request being
    served: the body of the request it was given is not read. *)
Theorem merge_frm_req_body rq hs a f b body use_get use_post use_json :
  merge_frm rq use_get use_post use_json
    (Some {| headers := hs; args := a; form := f; is_json := b; data_json := body |})
  = merge_frm {| headers := headers rq; args := a; form := f;
                 is_json := is_json rq; data_json := data_json rq |}
      use_get use_post use_json None.
Proof.
  unfold merge_frm. destruct use_json; [| reflexivity].
  rewrite !json_frm_forced. reflexivity.
Qed.


(** ** get_ip *)

Lemma str_in_sep_cons (sep c : ascii) (t : string) :
  str_in (String sep "") (String c t) = Ascii.eqb c sep || str_in (String sep "") t.
Proof.
  cbn [str_in String.prefix].
  destruct (ascii_dec sep c) as [<- | Hne].
  - rewrite Ascii.eqb_refl. by destruct t.
  - destruct (Ascii.eqb_spec c sep); [congruence | done].
Qed.

(** The first field of a split: the longest prefix without a separator. *)
Lemma py_split_head (sep : ascii) (s : string) :
  ∃ r l rest, py_split sep s = r :: l
              ∧ s = r +:+ rest
              ∧ str_in (String sep "") r = false
              ∧ (rest = "" ∨ ∃ t, rest = String sep t).
Proof.
  induction s as [| c t (r & l & rest & Hsplit & Ht & Hr & Hrest)]; cbn [py_split].
  - exists "", [], "". repeat split; by left.
  - destruct (Ascii.eqb_spec c sep) as [-> | Hne].
    + exists "", (py_split sep t), (String sep t). repeat split; eauto.
    + rewrite Hsplit. exists (String c r), l, rest. repeat split; [by rewrite Ht | | done].
      rewrite str_in_sep_cons, Hr. by destruct (Ascii.eqb_spec c sep).
Qed.

(** The header found is a header of the request, under a name that is
    the one asked for up to letter case. *)
Lemma header_get_Some (h : gmap string string) (name v : string) :
  header_get h name = Some v →
  ∃ k, h !! k = Some v ∧ environ_key k = environ_key name.
Proof.
  unfold header_get.
  destruct (find _ (map_to_list h)) as [[k w] |] eqn:Hfind; [| done].
  intros [= <-]. apply find_some in Hfind as [Hin Hkey].
  exists k. split.
  - by apply elem_of_map_to_list, list_elem_of_In.
  - by apply String.eqb_eq.
Qed.

Lemma header_get_None (h : gmap string string) (name : string) :
  header_get h name = None →
  ∀ k, environ_key k = environ_key name → h !! k = None.
Proof.
  unfold header_get.
  destruct (find _ (map_to_list h)) as [kv |] eqn:Hfind; [done |].
  intros _ k Hk. destruct (h !! k) as [v |] eqn:Hv; [| done].
  apply elem_of_map_to_list, list_elem_of_In in Hv.
  apply (find_none _ _ Hfind) in Hv. cbn [fst] in Hv.
  by rewrite Hk, String.eqb_refl in Hv.
Qed.

Section IpProperties.

Variable ip_is_v6 : option string → option bool.
Variable request : Request.
Variable remote_addr : option string.
Variable cf : Settings.

(** X14. With USE_IP_HEADER set and no fake addresses, get_ip returns the
    value of the configured header up to its first comma, as it stands
    (nothing is stripped, and it is empty when the value starts with a
    comma); the header is found whatever the letter case of its name in
    the request and in the configuration.  When the request has no such
    header, get_ip returns the text Unknown IP.... *)
Theorem get_ip_header_field :
  USE_IP_HEADER cf = true → USE_FAKE_IPS cf = false →
  match header_get (headers request) (IP_HEADER cf) with
  | Some v =>
      (∃ k, headers request !! k = Some v
            ∧ environ_key k = environ_key (IP_HEADER cf))
      ∧ ∃ r rest, get_ip ip_is_v6 request remote_addr cf = Some r
                  ∧ v = r +:+ rest
                  ∧ str_in "," r = false
                  ∧ (rest = "" ∨ ∃ t, rest = String "," t)
  | None =>
      (∀ k, environ_key k = environ_key (IP_HEADER cf) → headers request !! k = None)
      ∧ get_ip ip_is_v6 request remote_addr cf = Some "Unknown IP..."
  end.
Proof.
  intros Huse Hfake. unfold get_ip. rewrite Huse, Hfake.
  destruct (header_get (headers request) (IP_HEADER cf)) as [v |] eqn:Hget;
    cbn [default from_option id].
  - split; [by apply header_get_Some |].
    unfold id. destruct (str_in "," v) eqn:Hcomma.
    + destruct (py_split_head "," v) as (r & l & rest & -> & Hv & Hr & Hrest).
      exists r, rest. by repeat split.
    + exists v, "". repeat split; [| done | by left].
      clear. induction v as [| c v IH]; [done |].
      change (String c v = String c (v +:+ "")). by f_equal.
  - split; [| reflexivity]. intros k Hk. by apply (header_get_None _ _ Hget).
Qed.

(** X15. With USE_FAKE_IPS set, get_ip returns one of the two fake
    addresses whenever it returns, with or without the header: the address
    of the client is only used to choose between them. *)
Theorem get_ip_fake (r : string) :
  USE_FAKE_IPS cf = true →
  get_ip ip_is_v6 request remote_addr cf = Some r →
  r = FAKE_V4 cf ∨ r = FAKE_V6 cf.
Proof.
  intros Hfake. unfold get_ip. rewrite Hfake.
  destruct (USE_IP_HEADER cf).
  - destruct (ip_is_v6 _) as [[] |]; cbn; intros [= <-]; auto.
  - destruct (ip_is_v6 remote_addr) as [[] |]; cbn; intros [= <-]; auto.
Qed.

(** X16. With USE_IP_HEADER unset the headers of the request have no
    part in the result; without fake addresses get_ip then returns the
    remote address, or the text Unknown IP... when there is none or it is
    empty, and never the empty string. *)
Theorem get_ip_remote_addr (request' : Request) :
  USE_IP_HEADER cf = false →
  get_ip ip_is_v6 request remote_addr cf = get_ip ip_is_v6 request' remote_addr cf
  ∧ (USE_FAKE_IPS cf = false →
     ∃ r, get_ip ip_is_v6 request remote_addr cf = Some r
          ∧ r ≠ ""
          ∧ (remote_addr = Some r
             ∨ (r = "Unknown IP..." ∧ (remote_addr = None ∨ remote_addr = Some "")))).
Proof.
  intros Huse. unfold get_ip. rewrite Huse. split; [reflexivity |].
  intros ->. destruct remote_addr as [a |].
  - destruct (String.eqb_spec a "") as [-> | Ha]; eauto 10.
  - eauto 10.
Qed.

End IpProperties.

(** ** get_redis *)

Lemma get_redis_stored host port st r st1 :
  get_redis host port st = (r, st1) →
  store st1 !! "redis" = Some r
  ∧ (built st1 ≤ S (built st))%nat
  ∧ (store st !! "redis" = None → redis_host r = host ∧ redis_port r = port)
  ∧ (is_Some (store st !! "redis") → st1 = st).
Proof.
  unfold get_redis. destruct (store st !! "redis") as [r0 |] eqn:Hst.
  - intros [= <- <-]. split; [done |]. split; [lia |]. by split.
  - intros [= <- <-]. cbn. rewrite lookup_insert_eq.
    split; [done |]. split; [lia |]. split; [done |]. by intros [? ?].
Qed.

Lemma get_redis_calls_filled settings st r0 rs st' :
  store st !! "redis" = Some r0 →
  get_redis_calls settings st = (rs, st') →
  st' = st ∧ Forall (λ r, r = r0) rs.
Proof.
  intros Hst. revert rs. induction settings as [| [host port] rest IH]; intros rs;
    cbn [get_redis_calls].
  - by intros [= <- <-].
  - unfold get_redis. rewrite Hst.
    destruct (get_redis_calls rest st) as [rs1 st2] eqn:Hrest.
    intros [= <- <-]. destruct (IH rs1 eq_refl) as [-> Hall]. by split; [| constructor].
Qed.

(** X17. get_redis keeps one client: over any run of calls, whatever the
    settings are at each, every call returns the client that the store
    holds at the end, at most one client is built, and it is built from
    the settings of the first call when the store had none. *)
Theorem get_redis_singleton settings st rs st' :
  get_redis_calls settings st = (rs, st') →
  Forall (λ r, store st' !! "redis" = Some r) rs
  ∧ (built st' ≤ S (built st))%nat
  ∧ (store st !! "redis" = None →
     ∀ host port rest, settings = (host, port) :: rest →
       Forall (λ r, redis_host r = host ∧ redis_port r = port) rs).
Proof.
  destruct settings as [| [host port] rest]; cbn [get_redis_calls].
  { intros [= <- <-]. repeat split; [constructor | lia | done]. }
  destruct (get_redis host port st) as [r st1] eqn:Hfirst.
  destruct (get_redis_calls rest st1) as [rs1 st2] eqn:Hrest.
  intros [= <- <-].
  destruct (get_redis_stored host port st r st1 Hfirst) as (Hr & Hbuilt & Hnew & _).
  destruct (get_redis_calls_filled rest st1 r rs1 st2 Hr Hrest) as [-> Hall].
  repeat split; [| done |].
  - constructor; [done |]. eapply Forall_impl; [exact Hall |]. by intros ? ->.
  - intros Hnone host' port' rest' [= <- <- <-].
    constructor; [by apply Hnew |].
    eapply Forall_impl; [exact Hall |]. intros ? ->. by apply Hnew.
Qed.

(** ** dump_yaml *)

(** Induction on data, with the property known for the values of a
    dictionary. *)
Lemma ydata_dict_ind (P : ydata → Prop) :
  (∀ s, P (YScalar s)) →
  (∀ l, P (YList l)) →
  (∀ l, P (YTuple l)) →
  (∀ l, P (YSet l)) →
  (∀ items, Forall (λ kv, P kv.2) items → P (YDict items)) →
  (∀ items, Forall (λ kv, P kv.2) items → P (YObj items)) →
  ∀ d, P d.
Proof.
  intros Hs Hl Ht Hset Hd Ho.
  fix IH 1. intros [s | l | l | l | items | items]; [by auto .. | |].
  - apply Hd. induction items as [| [k v] items IHitems]; constructor; [apply IH | done].
  - apply Ho. induction items as [| [k v] items IHitems]; constructor; [apply IH | done].
Qed.

Lemma fix_dictobj_items_plain (items : list (yscalar * ydata)) :
  Forall (λ kv, dict_plain (fix_dictobj kv.2) = true) items →
  forallb (fun kv => dict_plain (snd kv))
    (map (fun kv => (fst kv, fix_dictobj (snd kv))) items) = true.
Proof.
  induction 1 as [| [k v] items Hv Hitems IH]; [done |].
  cbn [map forallb fst snd] in *. by rewrite Hv, IH.
Qed.

Lemma fix_dictobj_items_again (items : list (yscalar * ydata)) :
  Forall (λ kv, fix_dictobj (fix_dictobj kv.2) = fix_dictobj kv.2) items →
  map (fun kv => (fst kv, fix_dictobj (snd kv)))
    (map (fun kv => (fst kv, fix_dictobj (snd kv))) items)
  = map (fun kv => (fst kv, fix_dictobj (snd kv))) items.
Proof.
  induction 1 as [| [k v] items Hv Hitems IH]; [done |].
  cbn [map fst snd] in *. by rewrite Hv, IH.
Qed.

Lemma fix_dictobj_fixed (d : ydata) :
  dict_plain (fix_dictobj d) = true
  ∧ fix_dictobj (fix_dictobj d) = fix_dictobj d.
Proof.
  induction d as [s | l | l | l | items IH | items IH] using ydata_dict_ind;
    cbn [fix_dictobj dict_plain]; try done.
  - split.
    + apply fix_dictobj_items_plain. eapply Forall_impl; [exact IH |]. by intros ? [? _].
    + f_equal. apply fix_dictobj_items_again.
      eapply Forall_impl; [exact IH |]. by intros ? [_ ?].
  - split.
    + apply fix_dictobj_items_plain. eapply Forall_impl; [exact IH |]. by intros ? [? _].
    + f_equal. apply fix_dictobj_items_again.
      eapply Forall_impl; [exact IH |]. by intros ? [_ ?].
Qed.

(** X18. What _fix_dictobj returns has no dict-like object left, neither
    at the top nor under the values of dictionaries at any depth, and
    applying _fix_dictobj once more changes nothing. *)
Theorem fix_dictobj_plain (d : ydata) :
  dict_plain (fix_dictobj d) = true
  ∧ fix_dictobj (fix_dictobj d) = fix_dictobj d.
Proof. apply fix_dictobj_fixed. Qed.

Section YamlProperties.

Variable yaml_dump : ydata → string.
Variable characters : string → list string.

(** X19. dump_yaml raises for a scalar that is no string and for nothing
    else: None, a boolean or a number raises TypeError, because neither
    dict() nor list() accepts it; every other input gets to yaml.dump. *)
Theorem dump_yaml_raises (data : ydata) :
  ((∃ e, dump_yaml yaml_dump characters data = Raise e)
   ↔ ∃ s, data = YScalar s ∧ ∀ t, s ≠ SStr t)
  ∧ ∀ e, dump_yaml yaml_dump characters data = Raise e → e = TypeError.
Proof.
  unfold dump_yaml, dump_yaml_data.
  destruct data as [s | l | l | l | items | items];
    try (split; [split; [by intros [e ?] | by intros (s & ? & _)] | done]).
  destruct s as [| b | z | f | t]; cbn;
    try (split; [split; [intros _; eexists; split; [done | done] | eauto]
                | by intros e [= <-]]).
  destruct (String.eqb t ""); cbn;
    (split; [split; [by intros [e ?] | by intros (s & [= <-] & Hs); destruct (Hs t)]
            | done]).
Qed.

(** X20. dump_yaml does not look into lists: a list is handed to
    yaml.dump as it is, and a list that is a value of a dictionary stays
    as it is, with the dict-like objects it may hold. *)
Theorem dump_yaml_keeps_lists (l : list ydata) :
  dump_yaml yaml_dump characters (YList l) = Ok (yaml_dump (YList l))
  ∧ ∀ items k, (k, YList l) ∈ items →
      ∃ items', dump_yaml_data characters (YDict items) = Ok (YDict items')
                ∧ (k, YList l) ∈ items'.
Proof.
  split; [reflexivity |].
  intros items k Hin. eexists. split; [reflexivity |].
  apply (list_elem_of_fmap_2 (fun kv => (fst kv, fix_dictobj (snd kv))) items (k, YList l) Hin).
Qed.

(** X21. For a dictionary, a dict-like object, a tuple or a set,
    yaml.dump is given a plain dictionary or list: its values or elements
    have no dict-like object, neither themselves nor under the values of
    dictionaries. *)
Theorem dump_yaml_data_plain (data : ydata) :
  (∃ items, data = YDict items ∨ data = YObj items)
  ∨ (∃ l, data = YTuple l ∨ data = YSet l) →
  ∃ arg, dump_yaml_data characters data = Ok arg
         ∧ match arg with
           | YDict items => forallb (fun kv => dict_plain (snd kv)) items = true
           | YList l => forallb dict_plain l = true
           | _ => False
           end.
Proof.
  assert (∀ l, forallb dict_plain (map fix_dictobj l) = true) as Hlist.
  { induction l as [| d l IH]; [done |]. cbn [map forallb].
    by rewrite (proj1 (fix_dictobj_fixed d)), IH. }
  assert (∀ items : list (yscalar * ydata),
            forallb (fun kv => dict_plain (snd kv))
              (map (fun kv => (fst kv, fix_dictobj (snd kv))) items) = true) as Hitems.
  { intros items. apply fix_dictobj_items_plain, Forall_forall.
    intros kv _. apply fix_dictobj_fixed. }
  intros [(items & [-> | ->]) | (l & [-> | ->])]; eexists; (split; [reflexivity |]); cbn; auto.
Qed.

End YamlProperties.

(** ** Instances of the further properties *)

(** An instance of X4. *)
Lemma html_entry_registered_html_xhtml :
  str_in "html" "application/xhtml+xml" = true
  ∧ first_type CONTENT_TYPES (lower "application/xhtml+xml") = Some "html"
  ∧ "html" = "html".
Proof.
  split; [reflexivity |]. split; [reflexivity |].
  apply (html_entry_registered_html "application/xhtml+xml" "html"); reflexivity.
Defined.

(** An instance of X6: the argument [application/json] against two
    different sets of headers. *)
Lemma accepts_argument_overrides_json :
  wants_type AcceptTypes.parse_header bare_request
    (Some "application/json") None (Some ∅) (Some "xml")
  = wants_type AcceptTypes.parse_header
      {| headers := {[ "Accept" := "text/plain" ]}; args := ∅; form := ∅;
         is_json := false; data_json := None |}
      (Some "application/json") (Some {[ "Accept" := "text/yaml" ]}) (Some ∅)
      (Some "xml").
Proof.
  apply (accepts_argument_overrides AcceptTypes.parse_header bare_request).
  discriminate.
Defined.

(** An instance of X7: the request asks for JSON, the headers handed over
    have no Accept entry. *)
Lemma headers_without_accept_agent :
  wants_type AcceptTypes.parse_header
    {| headers := {[ "Accept" := "application/json" ]}; args := ∅; form := ∅;
       is_json := false; data_json := None |}
    None (Some {[ "User-Agent" := "curl" ]}) (Some ∅) (Some "xml")
  = wants_type AcceptTypes.parse_header
      {| headers := {[ "Accept" := "application/json" ]}; args := ∅; form := ∅;
         is_json := false; data_json := None |}
      (Some "*/*") None (Some ∅) (Some "xml").
Proof.
  apply (headers_without_accept AcceptTypes.parse_header).
  - apply map_non_empty_singleton.
  - reflexivity.
  - left. reflexivity.
Defined.

(** An instance of X8: [?format=json] in the query string, [yaml] in the
    body. *)
Lemma body_format_decides_yaml :
  wants_type AcceptTypes.parse_header
    {| headers := ∅; args := {[ "format" := PStr "json" ]}; form := ∅;
       is_json := true; data_json := Some (PDict {[ "format" := PStr "yaml" ]}) |}
    None None None None
  = wants_type AcceptTypes.parse_header
      {| headers := ∅; args := {[ "format" := PStr "json" ]}; form := ∅;
         is_json := true; data_json := Some (PDict {[ "format" := PStr "yaml" ]}) |}
      None None (Some {[ "format" := PStr "yaml" ]}) None.
Proof.
  apply (body_format_decides AcceptTypes.parse_header _ None None None
           {[ "format" := PStr "yaml" ]} "yaml").
  - reflexivity.
  - reflexivity.
  - left. reflexivity.
Defined.

(** An instance of X9: the body [[1]] against the explicit format [json]. *)
Lemma non_object_body_raises_array :
  wants_type AcceptTypes.parse_header
    {| headers := ∅; args := ∅; form := ∅; is_json := true;
       data_json := Some (PList [PInt 1]) |}
    None None None (Some "json") = Raise TypeError
  ∧ want_json AcceptTypes.parse_header
      {| headers := ∅; args := ∅; form := ∅; is_json := true;
         data_json := Some (PList [PInt 1]) |}
      false None None None (Some "json") = Raise TypeError.
Proof.
  apply (non_object_body_raises AcceptTypes.parse_header _ None None (Some "json")
           (PList [PInt 1])); reflexivity.
Defined.

(** An instance of X10: the format 5. *)
Lemma non_string_format_raises_number :
  wants_type AcceptTypes.parse_header bare_request None None
    (Some {[ "format" := PInt 5 ]}) None = Raise AttributeError.
Proof.
  apply (non_string_format_raises AcceptTypes.parse_header bare_request None None None
           {[ "format" := PInt 5 ]} (PInt 5)).
  - reflexivity.
  - discriminate.
  - left. reflexivity.
Defined.

(** An instance of X11. *)
Lemma want_json_needs_format_json :
  want_json AcceptTypes.parse_header bare_request false
    (Some "application/json") None (Some ∅) None = Ok false.
Proof.
  apply (want_json_needs_format AcceptTypes.parse_header bare_request
           (Some "application/json") None ∅ None).
  - left. reflexivity.
  - reflexivity.
Defined.


(** An instance of X14: a forwarded header with two addresses, spelt
    differently in the request and in the configuration.  In the
    instances an address with a colon stands in for [ip_is_v6]. *)
Lemma get_ip_header_field_forwarded :
  (∃ k, ({[ "X-Real-Ip" := "203.0.113.7, 10.0.0.1" ]} : gmap string string) !! k
        = Some "203.0.113.7, 10.0.0.1"
        ∧ environ_key k = environ_key "X-REAL-IP")
  ∧ ∃ r rest,
      get_ip (λ ip, Some (str_in ":" (default "" ip)))
        {| headers := {[ "X-Real-Ip" := "203.0.113.7, 10.0.0.1" ]}; args := ∅;
           form := ∅; is_json := false; data_json := None |}
        (Some "10.0.0.1")
        {| USE_IP_HEADER := true; IP_HEADER := "X-REAL-IP"; USE_FAKE_IPS := false;
           FAKE_V4 := "192.0.2.1"; FAKE_V6 := "2001:db8::1" |} = Some r
      ∧ "203.0.113.7, 10.0.0.1" = r +:+ rest
      ∧ str_in "," r = false
      ∧ (rest = "" ∨ ∃ t, rest = String "," t).
Proof.
  exact (get_ip_header_field (λ ip, Some (str_in ":" (default "" ip)))
           {| headers := {[ "X-Real-Ip" := "203.0.113.7, 10.0.0.1" ]}; args := ∅;
              form := ∅; is_json := false; data_json := None |}
           (Some "10.0.0.1")
           {| USE_IP_HEADER := true; IP_HEADER := "X-REAL-IP";
              USE_FAKE_IPS := false;
              FAKE_V4 := "192.0.2.1"; FAKE_V6 := "2001:db8::1" |} eq_refl eq_refl).
Defined.

(** The same request and configuration, evaluated. *)
Example get_ip_header_case :
  get_ip (λ ip, Some (str_in ":" (default "" ip)))
    {| headers := {[ "X-Real-Ip" := "203.0.113.7, 10.0.0.1" ]}; args := ∅;
       form := ∅; is_json := false; data_json := None |}
    (Some "10.0.0.1")
    {| USE_IP_HEADER := true; IP_HEADER := "X-REAL-IP"; USE_FAKE_IPS := false;
       FAKE_V4 := "192.0.2.1"; FAKE_V6 := "2001:db8::1" |} = Some "203.0.113.7".
Proof. reflexivity. Qed.

(** An instance of X15: an IPv6 client behind fake addresses. *)
Lemma get_ip_fake_v6 :
  "2001:db8::1" = "192.0.2.1" ∨ "2001:db8::1" = "2001:db8::1".
Proof.
  apply (get_ip_fake (λ ip, Some (str_in ":" (default "" ip))) bare_request
           (Some "2a00:1450::5")
           {| USE_IP_HEADER := false; IP_HEADER := "X-Forwarded-For";
              USE_FAKE_IPS := true;
              FAKE_V4 := "192.0.2.1"; FAKE_V6 := "2001:db8::1" |} "2001:db8::1");
    reflexivity.
Defined.

(** An instance of X16: a forwarded header that is not looked at. *)
Lemma get_ip_remote_addr_plain :
  get_ip (λ ip, Some (str_in ":" (default "" ip)))
    {| headers := {[ "X-Forwarded-For" := "203.0.113.7" ]}; args := ∅;
       form := ∅; is_json := false; data_json := None |}
    (Some "10.0.0.1")
    {| USE_IP_HEADER := false; IP_HEADER := "X-Forwarded-For"; USE_FAKE_IPS := false;
       FAKE_V4 := "192.0.2.1"; FAKE_V6 := "2001:db8::1" |}
  = Some "10.0.0.1".
Proof.
  etrans;
    [ apply (get_ip_remote_addr (λ ip, Some (str_in ":" (default "" ip))) _
               (Some "10.0.0.1") _ bare_request); reflexivity
    | reflexivity ].
Defined.

(** An instance of X17: two calls under different settings, from an empty
    store. *)
Lemma get_redis_singleton_twice :
  Forall (λ r, store (get_redis_calls [("localhost", 6379%Z); ("cache", 6380%Z)]
                        {| store := ∅; built := 0 |}).2 !! "redis" = Some r)
    (get_redis_calls [("localhost", 6379%Z); ("cache", 6380%Z)]
       {| store := ∅; built := 0 |}).1
  ∧ (get_redis_calls [("localhost", 6379%Z); ("cache", 6380%Z)]
       {| store := ∅; built := 0 |}).1
    = [ {| redis_host := "localhost"; redis_port := 6379; redis_id := 0 |};
        {| redis_host := "localhost"; redis_port := 6379; redis_id := 0 |} ].
Proof.
  split; [| reflexivity].
  refine (proj1 (get_redis_singleton [("localhost", 6379%Z); ("cache", 6380%Z)]
                   {| store := ∅; built := 0 |}
                   (get_redis_calls [("localhost", 6379%Z); ("cache", 6380%Z)]
                      {| store := ∅; built := 0 |}).1
                   (get_redis_calls [("localhost", 6379%Z); ("cache", 6380%Z)]
                      {| store := ∅; built := 0 |}).2 _)).
  reflexivity.
Defined.

(** An instance of X21: a tuple with a dict-like object. *)
Lemma dump_yaml_data_plain_tuple :
  ∃ arg,
    dump_yaml_data (λ s, (λ c, String c "") <$> list_ascii_of_string s)
      (YTuple [YObj [(SStr "ip", YScalar (SStr "203.0.113.7"))]]) = Ok arg
    ∧ match arg with
      | YDict items => forallb (fun kv => dict_plain (snd kv)) items = true
      | YList l => forallb dict_plain l = true
      | _ => False
      end.
Proof.
  apply (dump_yaml_data_plain (λ s, (λ c, String c "") <$> list_ascii_of_string s)).
  right. eexists. left. reflexivity.
Defined.

(** An instance of X22: the format [xml] and an Accept header that names
    nothing known. *)
Lemma any_needs_format_xml :
  ((∃ s, Some "xml" = Some s ∧ s ≠ "") ∨ is_Some ((∅ : gmap string pyval) !! "format"))
  ∧ accept_loop (AcceptTypes.parse_header
                   (accept_header bare_request (Some "image/png") None)) = "any".
Proof.
  apply (any_needs_format AcceptTypes.parse_header bare_request
           (Some "image/png") None ∅ (Some "xml")).
  reflexivity.
Defined.

(** C3, the counterexample.  wants_type is not total over every parameter
    map: with no explicit format and the parameters {format: ["json"]}, a
    list as some versions of [dict(request.args)] give it, [fmt.lower()]
    raises AttributeError, whatever the Accept header is. *)
Lemma wants_type_format_list_raises :
  wants_type AcceptTypes.parse_header bare_request (Some "application/json") None
    (Some {[ "format" := PList [PStr "json"] ]}) None = Raise AttributeError.
Proof. reflexivity. Qed.
